(** * A shallow embedding of libavfilter/vf_qbresidual.c

    The filter callbacks [init], [query_formats], [config_props],
    [filter_frame] and [uninit] are written as functions over an explicit
    state: the filter's private context [QBResidualContext] and a [World]
    that records the live heap blocks obtained from [av_malloc], the
    outcomes of the allocator and a trace of the externally visible calls
    (model loading, tensor negotiation, allocation, release, logging).
    C undefined behaviour (a null dereference, an out-of-bounds array
    access) is the [None] outcome of the callbacks that can reach it. *)

From Stdlib Require Import ZArith List String Bool Lia.
Import ListNotations.
Open Scope Z_scope.

(** ** C integers and error codes *)

Definition INT_MAX : Z := 2 ^ 31 - 1.

(** Two's complement wrap-around of a 32-bit [int]. *)
Definition wrap_int (z : Z) : Z :=
  let m := z mod 2 ^ 32 in if m >? INT_MAX then m - 2 ^ 32 else m.

(** [a * b] on two [int]s. *)
Definition c_int_mul (a b : Z) : Z := wrap_int (a * b).

(** Conversion of an [int] argument to [size_t] (64 bits). *)
Definition size_t_of_int (z : Z) : Z := z mod 2 ^ 64.

Definition EIO : Z := 5.
Definition ENOMEM : Z := 12.
Definition EINVAL : Z := 22.
Definition AVERROR (e : Z) : Z := - e.

(** ** Pixel formats (the part of libavutil/pixdesc the filter uses) *)

Inductive AVPixelFormat :=
| AV_PIX_FMT_NONE
| AV_PIX_FMT_YUV420P
| AV_PIX_FMT_YUYV422
| AV_PIX_FMT_RGB24
| AV_PIX_FMT_YUV422P
| AV_PIX_FMT_YUV444P
| AV_PIX_FMT_GRAY8
| AV_PIX_FMT_NV12
| AV_PIX_FMT_GBRP
| AV_PIX_FMT_YUVA420P.

Scheme Equality for AVPixelFormat.

(** [av_pix_fmt_count_planes]: [AVERROR(EINVAL)] when the format has no
    descriptor. *)
Definition av_pix_fmt_count_planes (f : AVPixelFormat) : Z :=
  match f with
  | AV_PIX_FMT_NONE => AVERROR EINVAL
  | AV_PIX_FMT_YUV420P => 3
  | AV_PIX_FMT_YUYV422 => 1
  | AV_PIX_FMT_RGB24 => 1
  | AV_PIX_FMT_YUV422P => 3
  | AV_PIX_FMT_YUV444P => 3
  | AV_PIX_FMT_GRAY8 => 1
  | AV_PIX_FMT_NV12 => 2
  | AV_PIX_FMT_GBRP => 3
  | AV_PIX_FMT_YUVA420P => 4
  end.

(** ** DNN interface (libavfilter/dnn_interface.h) *)

Inductive DNNDataType := DNN_FLOAT | DNN_UINT8.
Inductive DNNReturnType := DNN_SUCCESS | DNN_ERROR.

Record DNNInputData := mkInput {
  dt : DNNDataType;
  width : Z;
  height : Z;
  channels : Z
}.

(** A loaded model ([DNNModel *]) is named by a number. *)
Definition DNNModel := nat.

(** The backend operations the filter calls.  [load_model] is a function
    pointer that may be NULL; [set_input_output] is the pointer the backend
    stores in the model it loads. *)
Record DNNModule := mkModule {
  load_model : option (string -> option DNNModel);
  set_input_output :
    DNNModel -> DNNInputData -> string -> list string -> DNNReturnType
}.

(** ** Filter context *)

Record plane_info := mkPlane {
  residual : option nat;   (* int8_t *residual: a heap block or NULL *)
  plane_width : Z;
  plane_height : Z
}.

Record QBResidualContext := mkCtx {
  model_filename : option string;
  backend_type : Z;
  dnn_module : option DNNModule;
  model : option DNNModel;
  input : DNNInputData;
  planes : list plane_info;   (* struct plane_info planes[3] *)
  nb_planes : Z
}.

Definition set_dnn_module (c : QBResidualContext) m :=
  mkCtx (model_filename c) (backend_type c) m (model c) (input c)
        (planes c) (nb_planes c).
Definition set_model (c : QBResidualContext) m :=
  mkCtx (model_filename c) (backend_type c) (dnn_module c) m (input c)
        (planes c) (nb_planes c).
Definition set_input (c : QBResidualContext) i :=
  mkCtx (model_filename c) (backend_type c) (dnn_module c) (model c) i
        (planes c) (nb_planes c).
Definition set_planes (c : QBResidualContext) ps :=
  mkCtx (model_filename c) (backend_type c) (dnn_module c) (model c)
        (input c) ps (nb_planes c).
Definition set_nb_planes (c : QBResidualContext) n :=
  mkCtx (model_filename c) (backend_type c) (dnn_module c) (model c)
        (input c) (planes c) n.

Fixpoint replace_nth {A} (l : list A) (n : nat) (x : A) : list A :=
  match l, n with
  | [], _ => []
  | _ :: t, O => x :: t
  | h :: t, S n' => h :: replace_nth t n' x
  end.

(** [qbresidual->planes[p] = pl] *)
Definition set_plane (c : QBResidualContext) (p : nat) (pl : plane_info) :=
  set_planes c (replace_nth (planes c) p pl).

(** The private context as the filter framework hands it to [init]:
    zeroed, with the two options [dnn_backend] and [model] applied. *)
Definition ctx_zero (fname : option string) (bt : Z) : QBResidualContext :=
  mkCtx fname bt None None (mkInput DNN_FLOAT 0 0 0)
        (repeat (mkPlane None 0 0) 3) 0.

(** ** The world outside the filter *)

Inductive event :=
| EvLoadModel (path : string)
| EvSetInputOutput (inp : DNNInputData) (input_name : string)
                   (output_names : list string)
| EvMalloc (size : Z) (result : option nat)
| EvFree (blk : nat)
| EvFreeModel (m : DNNModel)
| EvInfer (m : DNNModel)
| EvWriteResidual (blk : nat)
| EvLogFrame (n pos w h : Z).

Record World := mkWorld {
  heap : list (nat * Z);      (* live av_malloc blocks and their sizes *)
  next_blk : nat;
  malloc_ok : list bool;      (* outcomes of the next allocations *)
  trace : list event
}.

Definition emit (w : World) (e : event) : World :=
  mkWorld (heap w) (next_blk w) (malloc_ok w) (trace w ++ [e]).

(** [av_malloc(size)]: refuses sizes above [max_alloc_size - 32]
    ([max_alloc_size] is [INT_MAX]); otherwise the allocator may fail, as
    the next entry of [malloc_ok] says (an exhausted list means success). *)
Definition av_malloc (size : Z) (w : World) : option nat * World :=
  if size >? INT_MAX - 32 then (None, emit w (EvMalloc size None))
  else
    match malloc_ok w with
    | false :: rest =>
        (None, mkWorld (heap w) (next_blk w) rest
                       (trace w ++ [EvMalloc size None]))
    | oks =>
        let b := next_blk w in
        (Some b, mkWorld ((b, size) :: heap w) (S b) (tl oks)
                         (trace w ++ [EvMalloc size (Some b)]))
    end.

Fixpoint remove_blk (b : nat) (h : list (nat * Z)) : list (nat * Z) :=
  match h with
  | [] => []
  | (b', s) :: t => if Nat.eqb b b' then t else (b', s) :: remove_blk b t
  end.

Definition av_free (b : nat) (w : World) : World :=
  mkWorld (remove_blk b (heap w)) (next_blk w) (malloc_ok w)
          (trace w ++ [EvFree b]).

(** ** init *)

Definition init (ff_get_dnn_module : Z -> option DNNModule)
    (c : QBResidualContext) (w : World) : Z * QBResidualContext * World :=
  (* av_lfg_init(&prng, 0) seeds a generator nothing reads *)
  let c := set_input c (mkInput DNN_FLOAT (width (input c))
                                (height (input c)) (channels (input c))) in
  let c := set_dnn_module c (ff_get_dnn_module (backend_type c)) in
  match dnn_module c with
  | None => (AVERROR ENOMEM, c, w)
  | Some m =>
      match model_filename c with
      | None => (AVERROR EINVAL, c, w)
      | Some path =>
          match load_model m with
          | None => (AVERROR EINVAL, c, w)
          | Some load =>
              let w := emit w (EvLoadModel path) in
              let c := set_model c (load path) in
              match model c with
              | None => (AVERROR EINVAL, c, w)
              | Some _ => (0, c, w)
              end
          end
      end
  end.

(** ** config_props *)

Record AVFilterLink := mkLink {
  link_w : Z;
  link_h : Z;
  link_format : AVPixelFormat
}.

(** [for (p = ...; p < nb_planes; p++)]: [k] iterations left, at index [p];
    an index past [planes[3]] is undefined behaviour. *)
Fixpoint alloc_planes (k p : nat) (lw lh : Z) (c : QBResidualContext)
    (w : World) : option (Z * QBResidualContext * World) :=
  match k with
  | O => Some (0, c, w)
  | S k' =>
      if (p <? 3)%nat then
        let '(r, w) := av_malloc (size_t_of_int (c_int_mul lw lh)) w in
        let c := set_plane c p (mkPlane r lw lh) in
        match r with
        | None => Some (AVERROR ENOMEM, c, w)
        | Some _ => alloc_planes k' (S p) lw lh c w
        end
      else None
  end.

Definition config_props (inlink : AVFilterLink) (c : QBResidualContext)
    (w : World) : option (Z * QBResidualContext * World) :=
  let model_output_name := "y"%string in
  let c := set_input c (mkInput (dt (input c)) (link_w inlink)
                                (link_h inlink) 3) in
  match dnn_module c, model c with
  | Some m, Some h =>
      let w := emit w (EvSetInputOutput (input c) "x" [model_output_name]) in
      match set_input_output m h (input c) "x" [model_output_name] with
      | DNN_ERROR => Some (AVERROR EIO, c, w)
      | DNN_SUCCESS =>
          let c := set_nb_planes c (av_pix_fmt_count_planes (link_format inlink)) in
          if negb (nb_planes c =? 3) then Some (AVERROR EIO, c, w)
          else alloc_planes (Z.to_nat (nb_planes c)) 0 (link_w inlink)
                            (link_h inlink) c w
      end
  | _, _ => None   (* qbresidual->model is NULL *)
  end.

(** ** query_formats *)

(** [ff_make_format_list]: the formats up to the [AV_PIX_FMT_NONE]
    terminator. *)
Fixpoint ff_make_format_list (fmts : list AVPixelFormat) : list AVPixelFormat :=
  match fmts with
  | [] => []
  | AV_PIX_FMT_NONE :: _ => []
  | f :: t => f :: ff_make_format_list t
  end.

(** [alloc_ok] is the outcome of the list allocation; on success the list
    is installed on every link by [ff_set_common_formats]. *)
Definition query_formats (alloc_ok : bool) : Z * option (list AVPixelFormat) :=
  let pixel_formats := [AV_PIX_FMT_YUV420P; AV_PIX_FMT_NONE] in
  if alloc_ok then (0, Some (ff_make_format_list pixel_formats))
  else (AVERROR ENOMEM, None).

(** The input formats the filter accepts in format negotiation. *)
Definition format_accepted (f : AVPixelFormat) : bool :=
  match snd (query_formats true) with
  | Some l => existsb (AVPixelFormat_beq f) l
  | None => false
  end.

(** ** filter_frame *)

Definition AV_NOPTS_VALUE : Z := - 2 ^ 63.

(** A reference-counted frame; [frame_id] is the object's identity and
    [frame_writable] the result of [av_frame_is_writable]. *)
Record AVFrame := mkFrame {
  frame_id : nat;
  frame_writable : bool;
  pts : Z;
  pkt_pos : Z;
  frame_width : Z;
  frame_height : Z;
  frame_data : list Z
}.

(** Frames freed by the filter and frames handed to the next filter, in
    order. *)
Record FrameWorld := mkFW {
  next_frame : nat;
  freed_frames : list nat;
  downstream : list AVFrame
}.

(** [ff_get_video_buffer(outlink, w, h)]: [vbuf] is the pool's outcome,
    [None] for a failed allocation, or the (unspecified) samples of the new
    buffer. *)
Definition ff_get_video_buffer (vbuf : option (list Z)) (w h : Z)
    (fw : FrameWorld) : option AVFrame * FrameWorld :=
  match vbuf with
  | None => (None, fw)
  | Some d =>
      (Some (mkFrame (next_frame fw) true AV_NOPTS_VALUE (-1) w h d),
       mkFW (S (next_frame fw)) (freed_frames fw) (downstream fw))
  end.

(** [av_frame_copy_props(dst, src)]: metadata only, not the samples. *)
Definition av_frame_copy_props (dst src : AVFrame) : AVFrame :=
  mkFrame (frame_id dst) (frame_writable dst) (pts src) (pkt_pos src)
          (frame_width dst) (frame_height dst) (frame_data dst).

Definition av_frame_free (f : AVFrame) (fw : FrameWorld) : FrameWorld :=
  mkFW (next_frame fw) (freed_frames fw ++ [frame_id f]) (downstream fw).

(** [ff_filter_frame(outlink, out)]: ownership of [out] goes downstream. *)
Definition ff_filter_frame (f : AVFrame) (fw : FrameWorld) : Z * FrameWorld :=
  (0, mkFW (next_frame fw) (freed_frames fw) (downstream fw ++ [f])).

Definition filter_frame (vbuf : option (list Z)) (frame_count_out : Z)
    (outlink : AVFilterLink) (c : QBResidualContext) (w : World)
    (fw : FrameWorld) (in_ : AVFrame)
    : Z * QBResidualContext * World * FrameWorld :=
  let created :=
    if frame_writable in_ then inl (in_, fw)
    else
      match ff_get_video_buffer vbuf (link_w outlink) (link_h outlink) fw with
      | (None, fw) => inr (av_frame_free in_ fw)
      | (Some out, fw) => inl (av_frame_copy_props out in_, fw)
      end in
  match created with
  | inr fw => (AVERROR ENOMEM, c, w, fw)
  | inl (out, fw) =>
      let frame := in_ in
      let w := emit w (EvLogFrame frame_count_out (pkt_pos frame)
                                  (frame_width frame) (frame_height frame)) in
      let fw := if negb (Nat.eqb (frame_id out) (frame_id in_))
                then av_frame_free in_ fw else fw in
      let '(r, fw) := ff_filter_frame out fw in
      (r, c, w, fw)
  end.

(** ** uninit *)

(** [for (p = ...; p < nb_planes; p++) av_freep(&planes[p].residual)] *)
Fixpoint free_planes (k p : nat) (c : QBResidualContext) (w : World)
    : option (QBResidualContext * World) :=
  match k with
  | O => Some (c, w)
  | S k' =>
      match nth_error (planes c) p with
      | None => None   (* past planes[3] *)
      | Some pl =>
          let w := match residual pl with
                   | Some b => av_free b w
                   | None => w
                   end in
          free_planes k' (S p)
            (set_plane c p (mkPlane None (plane_width pl) (plane_height pl))) w
      end
  end.

(** Modelled from the spec: the backends' [free_model] operation
    (dnn_backend_native.c and dnn_backend_tf.c are not part of this tree).
    It releases the model [*model] points to, does nothing for a NULL
    handle, and leaves the handle NULL. *)
Definition free_model (c : QBResidualContext) (w : World)
    : QBResidualContext * World :=
  match model c with
  | None => (c, w)
  | Some h => (set_model c None, emit w (EvFreeModel h))
  end.

Definition uninit (c : QBResidualContext) (w : World)
    : option (QBResidualContext * World) :=
  match free_planes (Z.to_nat (nb_planes c)) 0 c w with
  | None => None
  | Some (c, w) =>
      match dnn_module c with
      | Some _ =>
          let '(c, w) := free_model c w in
          Some (set_dnn_module c None, w)
      | None => Some (c, w)
      end
  end.

(** ** The stage's lifetime

    The filter graph runs [init]; when it succeeds and the graph is
    configured, [config_props] on the input link; and [uninit] in every
    case ([avfilter_free] runs it after a failed [init] or a failed link
    configuration too). *)
Definition run_stage (ff_get_dnn_module : Z -> option DNNModule)
    (c0 : QBResidualContext) (w0 : World) (inlink : option AVFilterLink)
    : option (QBResidualContext * World) :=
  let '(r, c1, w1) := init ff_get_dnn_module c0 w0 in
  match inlink with
  | Some l =>
      if r =? 0 then
        match config_props l c1 w1 with
        | None => None
        | Some (_, c2, w2) => uninit c2 w2
        end
      else uninit c1 w1
  | None => uninit c1 w1
  end.

(** A backend used in the examples: it loads every non-empty path and
    accepts every tensor shape. *)
Definition demo_module : DNNModule :=
  mkModule (Some (fun p => if String.eqb p "" then None else Some 7%nat))
           (fun _ _ _ _ => DNN_SUCCESS).

Definition demo_get_module (bt : Z) : option DNNModule :=
  if bt =? 0 then Some demo_module else None.

Definition world0 (oks : list bool) : World := mkWorld [] 0 oks [].

Definition link_yuv (w h : Z) : AVFilterLink := mkLink w h AV_PIX_FMT_YUV420P.

Definition is_malloc (e : event) : Prop :=
  match e with EvMalloc _ _ => True | _ => False end.

(** The model releases a trace records. *)
Definition free_model_events (tr : list event) : list event :=
  filter (fun e => match e with EvFreeModel _ => true | _ => false end) tr.

(** Modelled from the spec: the precondition of the backends' [load_model]
    (dnn_backend_native.c and dnn_backend_tf.c are not part of this tree):
    the path must be non-empty and name a readable model description, so
    loading the empty path fails. *)
Definition load_model_rejects_empty_path (m : DNNModule) : Prop :=
  match load_model m with
  | Some load => load EmptyString = None
  | None => True
  end.

(** The context after a successful [init] with [demo_module]. *)
Definition ctx_loaded : QBResidualContext :=
  let '(_, c, _) :=
    init demo_get_module (ctx_zero (Some "m.model"%string) 0) (world0 []) in
  c.

Example run_stage_demo :
  option_map (fun '(c, w) => (heap w, model c))
    (run_stage demo_get_module (ctx_zero (Some "m.model"%string) 0)
               (world0 []) (Some (link_yuv 4 4)))
  = Some ([], None).
Proof. reflexivity. Qed.

(** The residual buffers a list of planes points to, in plane order. *)
Definition residual_blocks (ps : list plane_info) : list nat :=
  flat_map (fun pl => match residual pl with Some b => [b] | None => [] end) ps.

(** The filter graph feeding input frames one by one to [filter_frame]
    (the filter being enabled on its timeline), each with the buffer
    pool's outcome for it; [inlink->frame_count_out] is incremented before
    each call. *)
Fixpoint feed_frames (outlink : AVFilterLink) (n : Z) (c : QBResidualContext)
    (w : World) (fw : FrameWorld) (ins : list (AVFrame * option (list Z)))
    : list Z * World * FrameWorld :=
  match ins with
  | [] => ([], w, fw)
  | (f, vbuf) :: rest =>
      let '(r, c, w, fw) := filter_frame vbuf (n + 1) outlink c w fw f in
      let '(rs, w, fw) := feed_frames outlink (n + 1) c w fw rest in
      (r :: rs, w, fw)
  end.

(** ** Theorems *)

(** *** Helper lemmas *)

Arguments av_malloc : simpl never.

Lemma av_malloc_spec s w r w' :
  av_malloc s w = (r, w') ->
  match r with
  | None => heap w' = heap w /\ next_blk w' = next_blk w /\
            trace w' = trace w ++ [EvMalloc s None]
  | Some b => b = next_blk w /\ heap w' = (b, s) :: heap w /\
              next_blk w' = S (next_blk w) /\
              trace w' = trace w ++ [EvMalloc s (Some b)]
  end.
Proof.
  unfold av_malloc, emit. destruct (s >? INT_MAX - 32).
  - intros H; injection H as <- <-; simpl; auto.
  - destruct (malloc_ok w) as [|[|] rest];
      intros H; injection H as <- <-; simpl; auto.
Qed.

Lemma av_malloc_trace s w r w' :
  av_malloc s w = (r, w') -> trace w' = trace w ++ [EvMalloc s r].
Proof.
  intros H. apply av_malloc_spec in H. destruct r; intuition congruence.
Qed.

Lemma alloc_planes_defined k : forall p lw lh c w,
  (p + k <= 3)%nat -> exists res, alloc_planes k p lw lh c w = Some res.
Proof.
  induction k as [|k IH]; intros p lw lh c w Hk; simpl.
  - eauto.
  - assert (Hp : (p <? 3)%nat = true) by (apply Nat.ltb_lt; lia).
    rewrite Hp. destruct (av_malloc _ w) as [[b|] w'].
    + apply IH. lia.
    + eauto.
Qed.

Lemma alloc_planes_trace k : forall p lw lh c w r c' w',
  alloc_planes k p lw lh c w = Some (r, c', w') ->
  exists evs, trace w' = trace w ++ evs /\ Forall is_malloc evs /\
    input c' = input c /\ nb_planes c' = nb_planes c /\
    (r = 0 \/ r = AVERROR ENOMEM).
Proof.
  induction k as [|k IH]; intros p lw lh c w r c' w' H; simpl in H.
  - injection H as <- <- <-. exists []. rewrite app_nil_r.
    repeat split; auto.
  - destruct (p <? 3)%nat; [|discriminate].
    destruct (av_malloc _ w) as [r0 w0] eqn:E.
    apply av_malloc_trace in E.
    destruct r0 as [b|].
    + apply IH in H. destruct H as (evs & Ht & Hf & Hi & Hn & Hr).
      exists (EvMalloc (size_t_of_int (c_int_mul lw lh)) (Some b) :: evs).
      rewrite Ht, E, <- app_assoc. simpl in *.
      repeat split; auto. constructor; simpl; auto.
    + injection H as <- <- <-. eexists. split; [exact E|].
      simpl. repeat split; auto. constructor; simpl; auto.
Qed.

(** The steps of [config_props] once a model is loaded: the tensor
    descriptor is filled and negotiated first; a rejected negotiation or a
    plane count other than 3 ends the call with [AVERROR(EIO)] before any
    allocation; only then come the plane allocations. *)
Lemma config_props_steps inlink c w m h :
  dnn_module c = Some m -> model c = Some h ->
  let inp := mkInput (dt (input c)) (link_w inlink) (link_h inlink) 3 in
  exists r c' w' evs,
    config_props inlink c w = Some (r, c', w') /\
    input c' = inp /\
    trace w' = trace w ++ EvSetInputOutput inp "x"%string ["y"%string] :: evs /\
    Forall is_malloc evs /\
    (set_input_output m h inp "x"%string ["y"%string] = DNN_ERROR ->
       r = AVERROR EIO /\ evs = []) /\
    (set_input_output m h inp "x"%string ["y"%string] = DNN_SUCCESS ->
     av_pix_fmt_count_planes (link_format inlink) <> 3 ->
       r = AVERROR EIO /\ evs = []) /\
    (r = 0 -> set_input_output m h inp "x"%string ["y"%string] = DNN_SUCCESS /\
              av_pix_fmt_count_planes (link_format inlink) = 3).
Proof.
  intros Hm Hh inp. unfold config_props. simpl. rewrite Hm, Hh.
  fold inp.
  destruct (set_input_output m h inp "x"%string ["y"%string]) eqn:Hio.
  - simpl.
    destruct (av_pix_fmt_count_planes (link_format inlink) =? 3) eqn:Hn.
    + apply Z.eqb_eq in Hn. rewrite Hn. cbn -[alloc_planes].
      match goal with
      | |- context [alloc_planes ?k ?p ?a ?b ?cc ?ww] =>
          destruct (alloc_planes_defined k p a b cc ww ltac:(simpl; lia))
            as [[[r c'] w'] Ha];
          rewrite Ha
      end.
      destruct (alloc_planes_trace _ _ _ _ _ _ _ _ _ Ha)
        as (evs & Ht & Hf & Hi & _ & _).
      exists r, c', w', evs. simpl in *.
      repeat split; auto; try discriminate; try congruence.
      all: rewrite Ht, <- app_assoc; reflexivity.
    + simpl. exists (AVERROR EIO), (set_nb_planes (set_input c inp)
                       (av_pix_fmt_count_planes (link_format inlink))),
               (emit w (EvSetInputOutput inp "x"%string ["y"%string])), [].
      apply Z.eqb_neq in Hn.
      repeat split; auto; try discriminate.
      all: try (intros H0; discriminate H0).
  - exists (AVERROR EIO), (set_input c inp),
           (emit w (EvSetInputOutput inp "x"%string ["y"%string])), [].
    repeat split; auto; try discriminate.
Qed.

(** With a product that fits an [int], the allocation size is the
    product itself. *)
Lemma alloc_size_exact lw lh :
  0 <= lw * lh <= INT_MAX -> size_t_of_int (c_int_mul lw lh) = lw * lh.
Proof.
  intros Hb. unfold size_t_of_int, c_int_mul, wrap_int, INT_MAX in *.
  rewrite (Z.mod_small (lw * lh) (2 ^ 32)) by lia.
  replace (lw * lh >? 2 ^ 31 - 1) with false
    by (symmetry; rewrite Z.gtb_ltb; apply Z.ltb_ge; lia).
  apply Z.mod_small. lia.
Qed.

(** Splits every [av_malloc] call in hypothesis [H] into its failing and
    its succeeding outcome. *)
Ltac malloc_cases H :=
  repeat match type of H with
  | context [av_malloc ?s ?w] =>
      let r := fresh "r" in
      let w' := fresh "w" in
      let E := fresh "E" in
      destruct (av_malloc s w) as [r w'] eqn:E;
      apply av_malloc_spec in E; destruct r; simpl in E, H
  end.

(** Rewrites the heap of the final world back to the initial one. *)
Ltac heap_rewrite :=
  repeat match goal with
  | E : heap ?x = _ |- context [heap ?x] => rewrite E
  end; reflexivity.

(** Reduces a [config_props] call in [H] to its allocation loop, given the
    loaded module [Hm] and model [Hh]; the failure branches that cannot
    produce result [ret] are closed. *)
Ltac config_to_loop H Hm Hh :=
  unfold config_props in H; simpl in H; rewrite Hm, Hh in H;
  match type of H with
  | context [set_input_output ?m ?h ?i ?x ?y] =>
      destruct (set_input_output m h i x y); simpl in H;
      [|discriminate H]
  end;
  match type of H with
  | context [av_pix_fmt_count_planes ?f =? 3] =>
      destruct (av_pix_fmt_count_planes f =? 3) eqn:Hn; simpl in H;
      [|discriminate H];
      apply Z.eqb_eq in Hn; rewrite Hn in H; simpl in H
  end.

Lemma init_success ff_get_dnn_module c w c' w' :
  init ff_get_dnn_module c w = (0, c', w') ->
  exists m h, dnn_module c' = Some m /\ model c' = Some h /\
    dt (input c') = DNN_FLOAT /\ planes c' = planes c /\
    nb_planes c' = nb_planes c /\ w' = emit w (EvLoadModel
      (match model_filename c with Some p => p | None => EmptyString end)).
Proof.
  unfold init. simpl.
  destruct (ff_get_dnn_module (backend_type c)) as [m|]; simpl;
    [|intros H; discriminate H].
  destruct (model_filename c) as [path|]; [|intros H; discriminate H].
  destruct (load_model m) as [load|]; [|intros H; discriminate H].
  simpl. destruct (load path) as [h|]; [|intros H; discriminate H].
  intros H. injection H as <- <-. exists m, h. simpl. repeat split; auto.
Qed.


Example av_pix_fmt_count_planes_yuv420p :
  av_pix_fmt_count_planes AV_PIX_FMT_YUV420P = 3.
Proof. reflexivity. Qed.

Example c_int_mul_wraps : c_int_mul 65537 65537 = 131073.
Proof. reflexivity. Qed.

(** *** filter_frame *)

(** C1 (counterexample): a shared input frame whose replacement buffer
    cannot be allocated is released and nothing is forwarded, so not every
    incoming frame yields one forwarded frame. *)
Lemma filter_frame_alloc_failure_forwards_nothing :
  let in_ := mkFrame 0 false 10 100 4 4 [1] in
  let '(r, _, _, fw') :=
    filter_frame None 0 (link_yuv 4 4) (ctx_zero None 0) (world0 [])
                 (mkFW 1 [] []) in_ in
  r = AVERROR ENOMEM /\ downstream fw' = [] /\ freed_frames fw' = [0%nat].
Proof. vm_compute. repeat split. Qed.

(** C1 (amended): a writable input frame is forwarded itself and not
    released; a shared input frame is replaced by a new frame (a fresh
    object carrying the input's timestamp and stream position), the new
    frame is forwarded and the input released; when that allocation fails
    the input is released, nothing is forwarded and [AVERROR(ENOMEM)] is
    returned.  In every case the input ends up exactly once either
    forwarded or released. *)
Theorem filter_frame_forwards_or_releases vbuf n outlink c w fw in_ :
  (frame_id in_ < next_frame fw)%nat ->
  let '(r, _, _, fw') := filter_frame vbuf n outlink c w fw in_ in
  (frame_writable in_ = true ->
     r = 0 /\ downstream fw' = downstream fw ++ [in_] /\
     freed_frames fw' = freed_frames fw) /\
  (forall d, frame_writable in_ = false -> vbuf = Some d ->
     r = 0 /\
     exists out, downstream fw' = downstream fw ++ [out] /\
       frame_id out = next_frame fw /\ frame_id out <> frame_id in_ /\
       pts out = pts in_ /\ pkt_pos out = pkt_pos in_ /\
       freed_frames fw' = freed_frames fw ++ [frame_id in_]) /\
  (frame_writable in_ = false -> vbuf = None ->
     r = AVERROR ENOMEM /\ downstream fw' = downstream fw /\
     freed_frames fw' = freed_frames fw ++ [frame_id in_]).
Proof.
  intros Hid. unfold filter_frame.
  destruct (frame_writable in_) eqn:Hw.
  - simpl. rewrite Nat.eqb_refl. simpl.
    split; [intros _; auto|].
    split; intros d Hf; discriminate.
  - destruct vbuf as [d|]; simpl.
    + assert (Hne : Nat.eqb (next_frame fw) (frame_id in_) = false)
        by (apply Nat.eqb_neq; lia).
      rewrite Hne. simpl.
      split; [discriminate|].
      split.
      * intros d' _ Hd. injection Hd as <-. split; [reflexivity|].
        eexists; repeat split; simpl; try reflexivity; lia.
      * discriminate.
    + split; [discriminate|].
      split; [intros d' _ Hd; discriminate|].
      intros _ _. auto.
Qed.

Lemma filter_frame_forwards_or_releases_witness :
  (0 < 1)%nat /\
  let in_ := mkFrame 0 false 10 100 4 4 [1] in
  let '(r, _, _, fw') :=
    filter_frame (Some [5]) 0 (link_yuv 4 4) (ctx_zero None 0) (world0 [])
                 (mkFW 1 [] []) in_ in
  (frame_writable in_ = true ->
     r = 0 /\ downstream fw' = [] ++ [in_] /\ freed_frames fw' = []) /\
  (forall d, frame_writable in_ = false -> Some [5] = Some d ->
     r = 0 /\
     exists out, downstream fw' = [] ++ [out] /\
       frame_id out = 1%nat /\ frame_id out <> frame_id in_ /\
       pts out = pts in_ /\ pkt_pos out = pkt_pos in_ /\
       freed_frames fw' = [] ++ [frame_id in_]) /\
  (frame_writable in_ = false -> Some [5] = None ->
     r = AVERROR ENOMEM /\ downstream fw' = [] /\
     freed_frames fw' = [] ++ [frame_id in_]).
Proof.
  split; [lia|].
  exact (filter_frame_forwards_or_releases (Some [5]) 0 (link_yuv 4 4)
           (ctx_zero None 0) (world0 []) (mkFW 1 [] [])
           (mkFrame 0 false 10 100 4 4 [1]) ltac:(simpl; lia)).
Defined.

(** C2 (code bug): for a shared input frame the forwarded frame is the
    newly allocated pool buffer, with only the input's properties copied
    onto it, so it carries the pool's samples (here [0]) and not the
    input's ([7]); a writable input with the same samples is forwarded
    with them. *)
Lemma filter_frame_shared_payload_not_copied :
  let shared := mkFrame 0 false 10 100 4 4 [7] in
  let owned := mkFrame 0 true 10 100 4 4 [7] in
  (let '(_, _, _, fw') :=
     filter_frame (Some [0]) 0 (link_yuv 4 4) (ctx_zero None 0) (world0 [])
                  (mkFW 1 [] []) shared in
   map frame_data (downstream fw') = [[0]]) /\
  (let '(_, _, _, fw') :=
     filter_frame (Some [0]) 0 (link_yuv 4 4) (ctx_zero None 0) (world0 [])
                  (mkFW 1 [] []) owned in
   map frame_data (downstream fw') = [[7]]) /\
  [0] <> frame_data shared.
Proof. vm_compute. repeat split. discriminate. Qed.

(** *** config_props *)

(** C3 (counterexample): with a four-plane format the model negotiation is
    still requested; the plane count is checked only after it, so the
    plane-count validation does not come first. *)
Lemma config_props_negotiates_before_plane_check :
  match config_props (mkLink 4 4 AV_PIX_FMT_YUVA420P) ctx_loaded
                     (world0 []) with
  | Some (r, _, w') =>
      r = AVERROR EIO /\
      trace w' = [EvSetInputOutput (mkInput DNN_FLOAT 4 4 3)
                                   "x"%string ["y"%string]]
  | None => False
  end.
Proof. vm_compute. split; reflexivity. Qed.

(** C3 (amended): once a model is loaded, [config_props] first fills the
    tensor descriptor with the link's width and height and 3 channels and
    hands it to the model negotiation; a rejected negotiation returns
    [AVERROR(EIO)]; only after a successful negotiation is the plane count
    checked, a count other than 3 returning [AVERROR(EIO)]; in both failure
    cases nothing is allocated, and the only later effects are the plane
    allocations, which happen only after both checks passed. *)
Theorem config_props_negotiates_then_validates_then_allocates
    inlink c w m h :
  dnn_module c = Some m -> model c = Some h ->
  let inp := mkInput (dt (input c)) (link_w inlink) (link_h inlink) 3 in
  exists r c' w' evs,
    config_props inlink c w = Some (r, c', w') /\
    input c' = inp /\
    trace w' = trace w ++ EvSetInputOutput inp "x"%string ["y"%string] :: evs /\
    Forall is_malloc evs /\
    (set_input_output m h inp "x"%string ["y"%string] = DNN_ERROR ->
       r = AVERROR EIO /\ evs = []) /\
    (set_input_output m h inp "x"%string ["y"%string] = DNN_SUCCESS ->
     av_pix_fmt_count_planes (link_format inlink) <> 3 ->
       r = AVERROR EIO /\ evs = []) /\
    (r = 0 -> set_input_output m h inp "x"%string ["y"%string] = DNN_SUCCESS /\
              av_pix_fmt_count_planes (link_format inlink) = 3).
Proof. intros Hm Hh. exact (config_props_steps inlink c w m h Hm Hh). Qed.

Lemma config_props_negotiates_then_validates_then_allocates_witness :
  dnn_module ctx_loaded = Some demo_module /\ model ctx_loaded = Some 7%nat /\
  let inlink := link_yuv 4 4 in
  let inp := mkInput (dt (input ctx_loaded)) (link_w inlink) (link_h inlink) 3 in
  exists r c' w' evs,
    config_props inlink ctx_loaded (world0 []) = Some (r, c', w') /\
    input c' = inp /\
    trace w' = trace (world0 []) ++ EvSetInputOutput inp "x"%string ["y"%string] :: evs /\
    Forall is_malloc evs /\
    (set_input_output demo_module 7%nat inp "x"%string ["y"%string] = DNN_ERROR ->
       r = AVERROR EIO /\ evs = []) /\
    (set_input_output demo_module 7%nat inp "x"%string ["y"%string] = DNN_SUCCESS ->
     av_pix_fmt_count_planes (link_format inlink) <> 3 ->
       r = AVERROR EIO /\ evs = []) /\
    (r = 0 -> set_input_output demo_module 7%nat inp "x"%string ["y"%string] = DNN_SUCCESS /\
              av_pix_fmt_count_planes (link_format inlink) = 3).
Proof.
  split; [reflexivity|]. split; [reflexivity|].
  exact (config_props_negotiates_then_validates_then_allocates
           (link_yuv 4 4) ctx_loaded (world0 []) demo_module 7%nat
           eq_refl eq_refl).
Defined.

(** C4: once a model is loaded, a link format whose plane count is not 3
    makes [config_props] fail with [AVERROR(EIO)]; the only effect on the
    world is the negotiation request, so no plane buffer is allocated, and
    the context's planes are untouched. *)
Theorem config_props_non_3_planes_allocates_nothing inlink c w m h :
  dnn_module c = Some m -> model c = Some h ->
  av_pix_fmt_count_planes (link_format inlink) <> 3 ->
  exists c',
    config_props inlink c w =
      Some (AVERROR EIO, c',
            emit w (EvSetInputOutput
                      (mkInput (dt (input c)) (link_w inlink) (link_h inlink) 3)
                      "x"%string ["y"%string])) /\
    planes c' = planes c.
Proof.
  intros Hm Hh Hn. unfold config_props. simpl. rewrite Hm, Hh.
  destruct (set_input_output m h _ _ _).
  - simpl. apply Z.eqb_neq in Hn. rewrite Hn. simpl.
    eexists. split; reflexivity.
  - eexists. split; reflexivity.
Qed.

Lemma config_props_non_3_planes_allocates_nothing_witness :
  dnn_module ctx_loaded = Some demo_module /\ model ctx_loaded = Some 7%nat /\
  av_pix_fmt_count_planes AV_PIX_FMT_NV12 <> 3 /\
  exists c',
    config_props (mkLink 4 4 AV_PIX_FMT_NV12) ctx_loaded (world0 []) =
      Some (AVERROR EIO, c',
            emit (world0 []) (EvSetInputOutput
                      (mkInput (dt (input ctx_loaded)) 4 4 3)
                      "x"%string ["y"%string])) /\
    planes c' = planes ctx_loaded.
Proof.
  split; [reflexivity|]. split; [reflexivity|]. split; [discriminate|].
  exact (config_props_non_3_planes_allocates_nothing
           (mkLink 4 4 AV_PIX_FMT_NV12) ctx_loaded (world0 []) demo_module
           7%nat eq_refl eq_refl ltac:(discriminate)).
Defined.

(** C10: after any successful [init], the negotiation [config_props]
    requests is the same up to the link geometry: a [DNN_FLOAT] input of
    the link's width and height with 3 channels, input tensor name "x" and
    the single output name "y"; the call succeeds only if the backend
    accepts exactly that request. *)
Theorem negotiation_request_is_fixed ff_get_dnn_module c0 w0 c1 w1 inlink :
  init ff_get_dnn_module c0 w0 = (0, c1, w1) ->
  let inp := mkInput DNN_FLOAT (link_w inlink) (link_h inlink) 3 in
  exists m h r c2 w2 evs,
    dnn_module c1 = Some m /\ model c1 = Some h /\
    config_props inlink c1 w1 = Some (r, c2, w2) /\
    trace w2 = trace w1 ++ EvSetInputOutput inp "x"%string ["y"%string] :: evs /\
    (r = 0 -> set_input_output m h inp "x"%string ["y"%string] = DNN_SUCCESS).
Proof.
  intros Hi inp.
  destruct (init_success _ _ _ _ _ Hi) as (m & h & Hm & Hh & Hdt & _).
  destruct (config_props_steps inlink c1 w1 m h Hm Hh)
    as (r & c2 & w2 & evs & Hc & _ & Ht & _ & _ & _ & Hr).
  rewrite Hdt in Ht, Hr.
  exists m, h, r, c2, w2, evs. repeat split; auto.
  intros H0. apply Hr, H0.
Qed.

Lemma negotiation_request_is_fixed_witness :
  let '(r, c1, w1) :=
    init demo_get_module (ctx_zero (Some "m.model"%string) 0) (world0 []) in
  r = 0 /\
  let inp := mkInput DNN_FLOAT 8 6 3 in
  exists m h r' c2 w2 evs,
    dnn_module c1 = Some m /\ model c1 = Some h /\
    config_props (link_yuv 8 6) c1 w1 = Some (r', c2, w2) /\
    trace w2 = trace w1 ++ EvSetInputOutput inp "x"%string ["y"%string] :: evs /\
    (r' = 0 -> set_input_output m h inp "x"%string ["y"%string] = DNN_SUCCESS).
Proof.
  split; [reflexivity|].
  exact (negotiation_request_is_fixed demo_get_module
           (ctx_zero (Some "m.model"%string) 0) (world0 []) _ _
           (link_yuv 8 6) eq_refl).
Defined.

(** C5 (counterexample): when the second plane allocation fails,
    [config_props] returns [AVERROR(ENOMEM)] with the first plane's buffer
    still allocated. *)
Lemma config_props_alloc_failure_keeps_first_buffer :
  match config_props (link_yuv 4 4) ctx_loaded
                     (mkWorld [] 0 [true; false] []) with
  | Some (r, c', w') =>
      r = AVERROR ENOMEM /\ heap w' = [(0%nat, 16)] /\
      map residual (planes c') = [Some 0%nat; None; None]
  | None => False
  end.
Proof. vm_compute. repeat split. Qed.

(** C5 (amended): starting from empty planes, when a plane allocation
    fails [config_props] returns [AVERROR(ENOMEM)] at once without
    releasing the buffers allocated before it in the same call; those
    buffers (fewer than 3) stay recorded, in order, in the first planes of
    the context, the failed plane and the later ones are NULL, and
    [nb_planes] is 3, so that [uninit] releases them. *)
Theorem config_props_alloc_failure_keeps_buffers_in_context
    inlink c w m h c' w' :
  dnn_module c = Some m -> model c = Some h -> List.length (planes c) = 3%nat ->
  Forall (fun pl => residual pl = None) (planes c) ->
  config_props inlink c w = Some (AVERROR ENOMEM, c', w') ->
  nb_planes c' = 3 /\
  exists bs, (List.length bs < 3)%nat /\
    map residual (planes c') = map Some bs ++ repeat None (3 - List.length bs) /\
    map fst (heap w') = rev bs ++ map fst (heap w).
Proof.
  intros Hm Hh Hlen Hnull H.
  destruct (planes c) as [|q0 [|q1 [|q2 [|]]]] eqn:Hp; simpl in Hlen;
    try discriminate.
  inversion Hnull as [|? ? N0 Hnull1]; subst.
  inversion Hnull1 as [|? ? N1 Hnull2]; subst.
  inversion Hnull2 as [|? ? N2 _]; subst.
  config_to_loop H Hm Hh.
  malloc_cases H;
    try discriminate H;
    injection H as <- <-;
    cbv [set_plane set_planes set_nb_planes set_input]; simpl;
    rewrite Hp; simpl; split; try reflexivity.
  all: repeat match goal with E : _ /\ _ |- _ => destruct E end.
  - exists [n; n0]. simpl. split; [lia|]. split; [reflexivity|].
    heap_rewrite.
  - exists [n]. simpl. rewrite N2. split; [lia|]. split; [reflexivity|].
    heap_rewrite.
  - exists []. simpl. rewrite N1, N2. split; [lia|]. split; [reflexivity|].
    heap_rewrite.
Qed.

Lemma config_props_alloc_failure_keeps_buffers_in_context_witness :
  exists c' w',
    config_props (link_yuv 4 4) ctx_loaded (mkWorld [] 0 [true; false] []) =
      Some (AVERROR ENOMEM, c', w') /\
    nb_planes c' = 3 /\
    exists bs, (List.length bs < 3)%nat /\
      map residual (planes c') = map Some bs ++ repeat None (3 - List.length bs) /\
      map fst (heap w') = rev bs ++ map fst (heap (mkWorld [] 0 [true; false] [])).
Proof.
  vm_compute. do 2 eexists. split; [reflexivity|].
  exact (config_props_alloc_failure_keeps_buffers_in_context
           (link_yuv 4 4) ctx_loaded (mkWorld [] 0 [true; false] [])
           demo_module 7%nat _ _ eq_refl eq_refl eq_refl
           ltac:(repeat constructor) eq_refl).
Defined.

(** C6: for a valid link (width and height above 2, and a pixel count
    that fits a C [int], as FFmpeg's image size check guarantees for every
    stream it accepts), a successful [config_props] after a loaded model
    records three plane buffers of width x height samples each, all three
    newly allocated, and leaves the tensor descriptor with the link's width
    and height and 3 channels. *)
Theorem config_props_success_allocates_three_planes
    inlink c w m h c' w' :
  dnn_module c = Some m -> model c = Some h ->
  List.length (planes c) = 3%nat ->
  2 < link_w inlink -> 2 < link_h inlink ->
  link_w inlink * link_h inlink <= INT_MAX ->
  config_props inlink c w = Some (0, c', w') ->
  let lw := link_w inlink in
  let lh := link_h inlink in
  exists b0 b1 b2,
    planes c' = [mkPlane (Some b0) lw lh; mkPlane (Some b1) lw lh;
                 mkPlane (Some b2) lw lh] /\
    heap w' = [(b2, lw * lh); (b1, lw * lh); (b0, lw * lh)] ++ heap w /\
    nb_planes c' = 3 /\
    width (input c') = lw /\ height (input c') = lh /\
    channels (input c') = 3.
Proof.
  intros Hm Hh Hlen Hw Hhg Hprod H lw lh.
  destruct (planes c) as [|q0 [|q1 [|q2 [|]]]] eqn:Hp; simpl in Hlen;
    try discriminate.
  config_to_loop H Hm Hh.
  rewrite (alloc_size_exact (link_w inlink) (link_h inlink)) in H by nia.
  malloc_cases H;
    try discriminate H;
    injection H as <- <-;
    cbv [set_plane set_planes set_nb_planes set_input]; simpl;
    rewrite Hp; simpl.
  repeat match goal with E : _ /\ _ |- _ => destruct E end.
  exists n, n0, n1. repeat split. heap_rewrite.
Qed.

Lemma config_props_success_allocates_three_planes_witness :
  exists c' w',
    config_props (link_yuv 4 3) ctx_loaded (world0 []) = Some (0, c', w') /\
    exists b0 b1 b2,
      planes c' = [mkPlane (Some b0) 4 3; mkPlane (Some b1) 4 3;
                   mkPlane (Some b2) 4 3] /\
      heap w' = [(b2, 4 * 3); (b1, 4 * 3); (b0, 4 * 3)] ++ heap (world0 []) /\
      nb_planes c' = 3 /\
      width (input c') = 4 /\ height (input c') = 3 /\
      channels (input c') = 3.
Proof.
  vm_compute. do 2 eexists. split; [reflexivity|].
  exact (config_props_success_allocates_three_planes
           (link_yuv 4 3) ctx_loaded (world0 []) demo_module 7%nat _ _
           eq_refl eq_refl eq_refl ltac:(vm_compute; reflexivity)
           ltac:(vm_compute; reflexivity) ltac:(vm_compute; discriminate)
           eq_refl).
Defined.

(** *** init *)

(** C7: with no model path, or with the empty path (which every backend
    fails to load), [init] fails, with [AVERROR(EINVAL)], or with
    [AVERROR(ENOMEM)] when no backend module could be created, and no
    model is loaded; with no path at all no load is even attempted. *)
Theorem init_rejects_missing_or_empty_model ff_get_dnn_module c w :
  (forall m, ff_get_dnn_module (backend_type c) = Some m ->
             load_model_rejects_empty_path m) ->
  model c = None ->
  model_filename c = None \/ model_filename c = Some EmptyString ->
  let '(r, c', w') := init ff_get_dnn_module c w in
  (r = AVERROR EINVAL \/ (r = AVERROR ENOMEM /\ dnn_module c' = None)) /\
  model c' = None /\
  (model_filename c = None -> w' = w).
Proof.
  intros Hload Hnull Hf. unfold init. simpl.
  destruct (ff_get_dnn_module (backend_type c)) as [m|] eqn:Hm; simpl.
  - specialize (Hload m eq_refl). unfold load_model_rejects_empty_path in Hload.
    destruct Hf as [Hf|Hf]; rewrite Hf.
    + auto.
    + destruct (load_model m) as [load|].
      * simpl. rewrite Hload. simpl. repeat split; auto; discriminate.
      * repeat split; auto; discriminate.
  - auto.
Qed.

Lemma init_rejects_missing_or_empty_model_witness :
  let '(r, c', w') :=
    init demo_get_module (ctx_zero (Some EmptyString) 0) (world0 []) in
  (r = AVERROR EINVAL \/ (r = AVERROR ENOMEM /\ dnn_module c' = None)) /\
  model c' = None /\
  (model_filename (ctx_zero (Some EmptyString) 0) = None -> w' = world0 []).
Proof.
  apply (init_rejects_missing_or_empty_model demo_get_module
           (ctx_zero (Some EmptyString) 0) (world0 [])).
  - intros m Hm. simpl in Hm. injection Hm as <-. reflexivity.
  - reflexivity.
  - right. reflexivity.
Defined.

(** *** query_formats *)

(** C8 (counterexample): [AV_PIX_FMT_YUV444P] has three planes but is not
    accepted. *)
Lemma query_formats_rejects_yuv444p :
  av_pix_fmt_count_planes AV_PIX_FMT_YUV444P = 3 /\
  format_accepted AV_PIX_FMT_YUV444P = false.
Proof. split; reflexivity. Qed.

(** C8 (amended): the only input format accepted is
    [AV_PIX_FMT_YUV420P]; every accepted format has three planes, but not
    every three-plane format is accepted. *)
Theorem query_formats_accepts_only_yuv420p :
  (forall f, format_accepted f = true <-> f = AV_PIX_FMT_YUV420P) /\
  (forall f, format_accepted f = true -> av_pix_fmt_count_planes f = 3).
Proof.
  split.
  - intros f; destruct f; vm_compute; split; intros H; congruence.
  - intros f; destruct f; vm_compute; intros H; congruence.
Qed.

(** *** uninit *)

(** Splits every [av_malloc] call of the goal into its two outcomes. *)
Ltac malloc_cases_goal :=
  repeat match goal with
  | |- context [av_malloc ?s ?w] =>
      let r := fresh "r" in
      let w' := fresh "w" in
      let E := fresh "E" in
      destruct (av_malloc s w) as [r w'] eqn:E;
      apply av_malloc_spec in E; destruct r; simpl in E |- *
  end.

(** Replaces the heap, trace and block counter of every intermediate world
    by their values. *)
Ltac world_rewrite :=
  repeat match goal with
  | E : _ /\ _ |- _ => destruct E
  | E : ?n = _ |- _ => is_var n; subst n
  | E : heap ?x = _ |- context [heap ?x] => rewrite E
  | E : trace ?x = _ |- context [trace ?x] => rewrite E
  | E : next_blk ?x = _ |- context [next_blk ?x] => rewrite E
  end; simpl.

(** Closes a teardown goal whose worlds are all known. *)
Ltac teardown_done :=
  cbv [set_model set_dnn_module set_input set_plane set_planes
       set_nb_planes ctx_zero emit world0] in *;
  simpl; world_rewrite;
  eexists _, _; split; [reflexivity|];
  simpl; world_rewrite; repeat split; repeat constructor.

(** C9: over the stage's lifetime from the zeroed context (an [init], a
    [config_props] on an accepted format when [init] succeeded, whatever
    the backend and the allocator do, and [uninit] in every case),
    teardown leaves no plane buffer allocated, every plane pointer NULL,
    no model and no backend module; the trace records exactly one release,
    of the loaded model, when [init] loaded one and none otherwise, also
    when [config_props] failed after the load; and a second teardown
    changes nothing. *)
Theorem stage_teardown_releases_everything ff_get_dnn_module fname bt oks
    inlink :
  (forall l, inlink = Some l -> format_accepted (link_format l) = true) ->
  let '(_, c1, _) :=
    init ff_get_dnn_module (ctx_zero fname bt) (world0 oks) in
  exists c w,
    run_stage ff_get_dnn_module (ctx_zero fname bt) (world0 oks) inlink =
      Some (c, w) /\
    heap w = [] /\
    Forall (fun pl => residual pl = None) (planes c) /\
    model c = None /\ dnn_module c = None /\
    free_model_events (trace w) =
      match model c1 with Some h => [EvFreeModel h] | None => [] end /\
    uninit c w = Some (c, w).
Proof.
  intros Hfmt. unfold run_stage, init. simpl.
  destruct (ff_get_dnn_module bt) as [m|]; simpl;
    [destruct fname as [path|]; simpl;
     [destruct (load_model m) as [load|]; simpl;
      [destruct (load path) as [h|]; simpl|]|]|].
  2-5: destruct inlink; teardown_done.
  destruct inlink as [l|]; [|teardown_done].
  assert (Hl : link_format l = AV_PIX_FMT_YUV420P).
  { specialize (Hfmt l eq_refl).
    destruct (link_format l); vm_compute in Hfmt; congruence. }
  unfold config_props. cbv [set_model set_dnn_module set_input ctx_zero].
  simpl. rewrite Hl. simpl.
  destruct (set_input_output m h _ _ _); simpl; [|teardown_done].
  malloc_cases_goal.
  all: teardown_done.
Qed.

Lemma stage_teardown_releases_everything_witness :
  (forall l, Some (link_yuv 4 4) = Some l ->
             format_accepted (link_format l) = true) /\
  (let '(_, c1, _) :=
     init demo_get_module (ctx_zero (Some "m.model"%string) 0)
          (world0 [true; false]) in
   exists c w,
     run_stage demo_get_module (ctx_zero (Some "m.model"%string) 0)
               (world0 [true; false]) (Some (link_yuv 4 4)) = Some (c, w) /\
     heap w = [] /\
     Forall (fun pl => residual pl = None) (planes c) /\
     model c = None /\ dnn_module c = None /\
     free_model_events (trace w) =
       match model c1 with Some h => [EvFreeModel h] | None => [] end /\
     uninit c w = Some (c, w)).
Proof.
  assert (H : forall l, Some (link_yuv 4 4) = Some l ->
                        format_accepted (link_format l) = true)
    by (intros l Hl; injection Hl as <-; reflexivity).
  split; [exact H|].
  exact (stage_teardown_releases_everything demo_get_module
           (Some "m.model"%string) 0 [true; false] (Some (link_yuv 4 4)) H).
Defined.

(** ** Further properties *)

(** X1: from a context with no model, [init] always sets the input type to
    [DNN_FLOAT] and keeps the planes and the plane count; it calls [load_model]
    once, on the configured path, exactly when a backend module was
    created, a path is set and the module has a [load_model] pointer, and
    not at all otherwise; the model it keeps is the result of that call
    (none without it), and it returns 0 exactly when a model was loaded. *)
Theorem init_outcome ff_get_dnn_module c w :
  model c = None ->
  let '(r, c', w') := init ff_get_dnn_module c w in
  dt (input c') = DNN_FLOAT /\ planes c' = planes c /\
  nb_planes c' = nb_planes c /\
  dnn_module c' = ff_get_dnn_module (backend_type c) /\
  trace w' = trace w ++
    match ff_get_dnn_module (backend_type c), model_filename c with
    | Some m, Some path =>
        match load_model m with Some _ => [EvLoadModel path] | None => [] end
    | _, _ => []
    end /\
  model c' =
    match ff_get_dnn_module (backend_type c), model_filename c with
    | Some m, Some path =>
        match load_model m with Some load => load path | None => None end
    | _, _ => None
    end /\
  (r = 0 <-> model c' <> None).
Proof.
  intros Hnull. unfold init. simpl.
  destruct (ff_get_dnn_module (backend_type c)) as [m|]; simpl;
    [destruct (model_filename c) as [path|]; simpl;
     [destruct (load_model m) as [load|]; simpl;
      [destruct (load path) as [h|]; simpl|]|]|].
  all: rewrite ?app_nil_r.
  all: repeat split; auto; try congruence.
  all: try (intros H; discriminate H).
  all: try (intros H; exfalso; apply H; reflexivity).
Qed.

Lemma init_outcome_witness :
  model (ctx_zero (Some "m.model"%string) 0) = None /\
  let '(r, c', w') :=
    init demo_get_module (ctx_zero (Some "m.model"%string) 0) (world0 []) in
  dt (input c') = DNN_FLOAT /\
  planes c' = planes (ctx_zero (Some "m.model"%string) 0) /\
  nb_planes c' = nb_planes (ctx_zero (Some "m.model"%string) 0) /\
  dnn_module c' = demo_get_module 0 /\
  trace w' = trace (world0 []) ++
    match demo_get_module 0, Some "m.model"%string with
    | Some m, Some path =>
        match load_model m with Some _ => [EvLoadModel path] | None => [] end
    | _, _ => []
    end /\
  model c' =
    match demo_get_module 0, Some "m.model"%string with
    | Some m, Some path =>
        match load_model m with Some load => load path | None => None end
    | _, _ => None
    end /\
  (r = 0 <-> model c' <> None).
Proof.
  split; [reflexivity|].
  exact (init_outcome demo_get_module (ctx_zero (Some "m.model"%string) 0)
           (world0 []) eq_refl).
Defined.

(** X3: when the backend rejects the negotiation, [config_props] returns
    [AVERROR(EIO)] with the plane array and the plane count untouched and
    nothing allocated, but the tensor descriptor already holds the new
    link geometry. *)
Theorem config_props_negotiation_failure inlink c w m h :
  dnn_module c = Some m -> model c = Some h ->
  set_input_output m h
    (mkInput (dt (input c)) (link_w inlink) (link_h inlink) 3)
    "x"%string ["y"%string] = DNN_ERROR ->
  exists c' w',
    config_props inlink c w = Some (AVERROR EIO, c', w') /\
    planes c' = planes c /\ nb_planes c' = nb_planes c /\
    heap w' = heap w /\
    input c' = mkInput (dt (input c)) (link_w inlink) (link_h inlink) 3.
Proof.
  intros Hm Hh Hio. unfold config_props. simpl. rewrite Hm, Hh.
  rewrite Hio. do 2 eexists. repeat split; reflexivity.
Qed.

(** A backend that refuses every negotiation. *)
Lemma config_props_negotiation_failure_witness :
  let bad := mkModule (load_model demo_module) (fun _ _ _ _ => DNN_ERROR) in
  let c := set_dnn_module ctx_loaded (Some bad) in
  dnn_module c = Some bad /\ model c = Some 7%nat /\
  exists c' w',
    config_props (link_yuv 4 4) c (world0 []) = Some (AVERROR EIO, c', w') /\
    planes c' = planes c /\ nb_planes c' = nb_planes c /\
    heap w' = heap (world0 []) /\
    input c' = mkInput (dt (input c)) 4 4 3.
Proof.
  split; [reflexivity|]. split; [reflexivity|].
  exact (config_props_negotiation_failure (link_yuv 4 4)
           (set_dnn_module ctx_loaded
              (Some (mkModule (load_model demo_module)
                              (fun _ _ _ _ => DNN_ERROR))))
           (world0 []) _ 7%nat eq_refl eq_refl eq_refl).
Defined.

(** *** uninit *)

Lemma nth_error_replace_nth {A} (l : list A) : forall n x i,
  nth_error (replace_nth l n x) i =
  if Nat.eqb i n then
    match nth_error l n with Some _ => Some x | None => None end
  else nth_error l i.
Proof.
  induction l as [|a l IH]; intros n x i.
  - simpl. rewrite !nth_error_nil. destruct (Nat.eqb i n); reflexivity.
  - destruct n as [|n], i as [|i]; simpl; try reflexivity.
    apply IH.
Qed.

Lemma replace_nth_length {A} (l : list A) : forall n x,
  List.length (replace_nth l n x) = List.length l.
Proof.
  induction l as [|a l IH]; intros [|n] x; simpl; auto.
Qed.

Lemma skipn_replace_nth {A} (l : list A) : forall n x,
  skipn (S n) (replace_nth l n x) = skipn (S n) l.
Proof.
  induction l as [|a l IH]; intros [|n] x; simpl; auto.
  apply (IH n x).
Qed.

Lemma skipn_nth_error {A} (l : list A) : forall p a,
  nth_error l p = Some a -> skipn p l = a :: skipn (S p) l.
Proof.
  induction l as [|b l IH]; intros [|p] a H; simpl in H |- *;
    try discriminate H.
  - injection H as <-. reflexivity.
  - apply IH, H.
Qed.

Lemma set_planes_set_planes c ps ps' :
  set_planes (set_planes c ps) ps' = set_planes c ps'.
Proof. destruct c; reflexivity. Qed.

(** The plane loop of [uninit]: defined exactly when it stays inside the
    plane array; it then sets the residual pointer of each visited plane
    to NULL, keeping its size, frees the buffers they pointed to, in
    order, and changes nothing else. *)
Lemma free_planes_spec k : forall p c w,
  match free_planes k p c w with
  | None => (0 < k /\ List.length (planes c) < p + k)%nat
  | Some (c', w') =>
      (k = 0 \/ p + k <= List.length (planes c))%nat /\
      c' = set_planes c (planes c') /\
      List.length (planes c') = List.length (planes c) /\
      (forall i, nth_error (planes c') i =
         if (p <=? i)%nat && (i <? p + k)%nat then
           option_map (fun pl => mkPlane None (plane_width pl)
                                         (plane_height pl))
                      (nth_error (planes c) i)
         else nth_error (planes c) i) /\
      trace w' = trace w ++
        map EvFree (residual_blocks (firstn k (skipn p (planes c)))) /\
      heap w' = fold_left (fun h b => remove_blk b h)
                  (residual_blocks (firstn k (skipn p (planes c)))) (heap w) /\
      next_blk w' = next_blk w /\ malloc_ok w' = malloc_ok w
  end.
Proof.
  induction k as [|k IH]; intros p c w; simpl.
  - split; [left; reflexivity|].
    split; [destruct c; reflexivity|].
    split; [reflexivity|].
    split; [|rewrite app_nil_r; auto].
    intros i. replace (i <? p + 0)%nat with (i <? p)%nat by (f_equal; lia).
    destruct (Nat.leb_spec p i), (Nat.ltb_spec i p); simpl; auto; lia.
  - destruct (nth_error (planes c) p) as [pl|] eqn:Hpl.
    2:{ apply nth_error_None in Hpl. lia. }
    set (c1 := set_plane c p (mkPlane None (plane_width pl) (plane_height pl))).
    set (w1 := match residual pl with Some b => av_free b w | None => w end).
    specialize (IH (S p) c1 w1).
    assert (Hlen : List.length (planes c1) = List.length (planes c))
      by (apply replace_nth_length).
    assert (Hsk : skipn (S p) (planes c1) = skipn (S p) (planes c))
      by (apply skipn_replace_nth).
    assert (Hp : (p < List.length (planes c))%nat)
      by (apply nth_error_Some; congruence).
    rewrite (skipn_nth_error _ _ _ Hpl).
    destruct (free_planes k (S p) c1 w1) as [[c' w']|].
    + destruct IH as (Hk & Hc' & Hl' & Hnth & Htr & Hh & Hnb & Hok).
      rewrite Hlen in Hk, Hl'. rewrite Hsk in Htr, Hh.
      split; [right; lia|].
      split; [rewrite Hc'; apply set_planes_set_planes|].
      split; [exact Hl'|].
      split.
      * intros i. rewrite Hnth. unfold c1, set_plane, set_planes.
        cbn [planes]. rewrite nth_error_replace_nth, Hpl.
        destruct (Nat.eqb_spec i p) as [->|Hne].
        -- rewrite Hpl.
           destruct (Nat.leb_spec (S p) p); [lia|].
           destruct (Nat.leb_spec p p); [|lia].
           destruct (Nat.ltb_spec p (p + S k)); [|lia]. reflexivity.
        -- destruct (Nat.leb_spec (S p) i), (Nat.leb_spec p i),
             (Nat.ltb_spec i (S p + k)), (Nat.ltb_spec i (p + S k));
             simpl; auto; lia.
      * simpl. unfold w1 in Htr, Hh, Hnb, Hok.
        destruct (residual pl) as [b|]; simpl in *;
          rewrite Htr, Hh; rewrite <- ?app_assoc; auto.
    + rewrite Hlen in IH. lia.
Qed.

Lemma uninit_effect c w :
  (Z.to_nat (nb_planes c) <= List.length (planes c))%nat ->
  let n := Z.to_nat (nb_planes c) in
  let freed := residual_blocks (firstn n (planes c)) in
  exists c' w',
    uninit c w = Some (c', w') /\
    (forall i, nth_error (planes c') i =
       if (i <? n)%nat then
         option_map (fun pl => mkPlane None (plane_width pl) (plane_height pl))
                    (nth_error (planes c) i)
       else nth_error (planes c) i) /\
    dnn_module c' = None /\
    model c' = match dnn_module c with Some _ => None | None => model c end /\
    nb_planes c' = nb_planes c /\ input c' = input c /\
    trace w' = trace w ++ map EvFree freed ++
      match dnn_module c, model c with
      | Some _, Some h => [EvFreeModel h]
      | _, _ => []
      end /\
    heap w' = fold_left (fun h b => remove_blk b h) freed (heap w).
Proof.
  intros Hn. cbv zeta. unfold uninit.
  pose proof (free_planes_spec (Z.to_nat (nb_planes c)) 0 c w) as Hf.
  destruct (free_planes _ 0 c w) as [[c1 w1]|]; [|simpl in Hf; lia].
  destruct Hf as (_ & Hc1 & Hl1 & Hnth & Htr & Hh & _).
  simpl in Htr, Hh.
  assert (Hm : dnn_module c1 = dnn_module c) by (rewrite Hc1; reflexivity).
  assert (Hmd : model c1 = model c) by (rewrite Hc1; reflexivity).
  assert (Hnb : nb_planes c1 = nb_planes c) by (rewrite Hc1; reflexivity).
  assert (Hin : input c1 = input c) by (rewrite Hc1; reflexivity).
  rewrite Hm. unfold free_model. rewrite Hmd.
  destruct (dnn_module c) as [mo|]; [destruct (model c) as [h|]|].
  all: eexists _, _; split; [reflexivity|].
  all: split; [intros i; simpl; rewrite Hnth;
               destruct (Nat.leb_spec 0 i); [|lia]; reflexivity|].
  all: simpl; rewrite ?Hmd, ?Hnb, ?Hin, ?Htr, ?Hh, ?app_nil_r, ?app_assoc;
       repeat split; auto.
Qed.

(** X5: [uninit] walks [nb_planes] entries of the three-element plane
    array: its behaviour is undefined exactly when [nb_planes] exceeds 3;
    for any other count (negative included) it completes. *)
Theorem uninit_undefined_iff_too_many_planes c w :
  List.length (planes c) = 3%nat ->
  (uninit c w = None <-> 3 < nb_planes c).
Proof.
  intros Hlen. unfold uninit.
  pose proof (free_planes_spec (Z.to_nat (nb_planes c)) 0 c w) as Hf.
  rewrite Hlen in Hf.
  destruct (free_planes _ 0 c w) as [[c1 w1]|].
  - destruct Hf as [Hk _].
    split; [destruct (dnn_module c1);
            [destruct (free_model c1 w1)|]; discriminate|lia].
  - split; [lia|reflexivity].
Qed.

Lemma uninit_undefined_iff_too_many_planes_witness :
  List.length (planes (set_nb_planes ctx_loaded 4)) = 3%nat /\
  (uninit (set_nb_planes ctx_loaded 4) (world0 []) = None <->
   3 < nb_planes (set_nb_planes ctx_loaded 4)).
Proof.
  split; [reflexivity|].
  exact (uninit_undefined_iff_too_many_planes (set_nb_planes ctx_loaded 4)
           (world0 []) eq_refl).
Defined.

(** X6: [config_props] stores the plane count of the link's format before
    rejecting it, so when a format with more than three planes (which
    [query_formats] does not offer) passes the model negotiation,
    [config_props] returns [AVERROR(EIO)] and the following [uninit] reads
    past the plane array. *)
Theorem config_props_rejected_format_breaks_uninit inlink c w m h :
  dnn_module c = Some m -> model c = Some h ->
  List.length (planes c) = 3%nat ->
  set_input_output m h
    (mkInput (dt (input c)) (link_w inlink) (link_h inlink) 3)
    "x"%string ["y"%string] = DNN_SUCCESS ->
  3 < av_pix_fmt_count_planes (link_format inlink) ->
  exists c' w',
    config_props inlink c w = Some (AVERROR EIO, c', w') /\
    nb_planes c' = av_pix_fmt_count_planes (link_format inlink) /\
    uninit c' w' = None.
Proof.
  intros Hm Hh Hlen Hio Hn.
  unfold config_props. simpl. rewrite Hm, Hh, Hio.
  replace (av_pix_fmt_count_planes (link_format inlink) =? 3) with false
    by (symmetry; apply Z.eqb_neq; lia).
  eexists _, _. split; [reflexivity|]. split; [reflexivity|].
  unfold uninit. simpl.
  pose proof (free_planes_spec
    (Z.to_nat (av_pix_fmt_count_planes (link_format inlink))) 0
    (set_nb_planes
       (set_input c (mkInput (dt (input c)) (link_w inlink) (link_h inlink) 3))
       (av_pix_fmt_count_planes (link_format inlink)))
    (emit w (EvSetInputOutput
               (mkInput (dt (input c)) (link_w inlink) (link_h inlink) 3)
               "x" ["y"%string]))) as Hf.
  simpl in Hf. rewrite Hlen in Hf.
  destruct (free_planes _ _ _ _) as [[c1 w1]|]; [|reflexivity].
  destruct Hf as [Hk _]. lia.
Qed.

Lemma config_props_rejected_format_breaks_uninit_witness :
  exists c' w',
    config_props (mkLink 4 4 AV_PIX_FMT_YUVA420P) ctx_loaded (world0 []) =
      Some (AVERROR EIO, c', w') /\
    nb_planes c' = 4 /\ uninit c' w' = None.
Proof.
  exact (config_props_rejected_format_breaks_uninit
           (mkLink 4 4 AV_PIX_FMT_YUVA420P) ctx_loaded (world0 [])
           demo_module 7%nat eq_refl eq_refl eq_refl eq_refl
           ltac:(vm_compute; reflexivity)).
Defined.

(** X7: with at most three planes counted, [uninit] sets the residual
    pointer of each of the first [nb_planes] planes to NULL (keeping the
    recorded sizes) and leaves the others as they are; it frees the
    buffers those planes pointed to, in plane order; it releases the model
    through the backend and drops the module when a module exists (the
    model is kept when there is none), so one model release is recorded
    exactly when both a module and a model exist. *)
Theorem uninit_releases_counted_planes_and_model c w :
  List.length (planes c) = 3%nat -> nb_planes c <= 3 ->
  let n := Z.to_nat (nb_planes c) in
  let freed := residual_blocks (firstn n (planes c)) in
  exists c' w',
    uninit c w = Some (c', w') /\
    (forall i, nth_error (planes c') i =
       if (i <? n)%nat then
         option_map (fun pl => mkPlane None (plane_width pl) (plane_height pl))
                    (nth_error (planes c) i)
       else nth_error (planes c) i) /\
    dnn_module c' = None /\
    model c' = match dnn_module c with Some _ => None | None => model c end /\
    nb_planes c' = nb_planes c /\ input c' = input c /\
    trace w' = trace w ++ map EvFree freed ++
      match dnn_module c, model c with
      | Some _, Some h => [EvFreeModel h]
      | _, _ => []
      end /\
    heap w' = fold_left (fun h b => remove_blk b h) freed (heap w).
Proof.
  intros Hlen Hnb. apply uninit_effect. rewrite Hlen. lia.
Qed.

Lemma uninit_releases_counted_planes_and_model_witness :
  let c := set_planes (set_nb_planes ctx_loaded 2)
             [mkPlane (Some 0%nat) 4 4; mkPlane (Some 1%nat) 4 4;
              mkPlane (Some 2%nat) 4 4] in
  let w := mkWorld [(2%nat, 16); (1%nat, 16); (0%nat, 16)] 3 [] [] in
  List.length (planes c) = 3%nat /\ nb_planes c <= 3 /\
  let n := Z.to_nat (nb_planes c) in
  let freed := residual_blocks (firstn n (planes c)) in
  exists c' w',
    uninit c w = Some (c', w') /\
    (forall i, nth_error (planes c') i =
       if (i <? n)%nat then
         option_map (fun pl => mkPlane None (plane_width pl) (plane_height pl))
                    (nth_error (planes c) i)
       else nth_error (planes c) i) /\
    dnn_module c' = None /\
    model c' = match dnn_module c with Some _ => None | None => model c end /\
    nb_planes c' = nb_planes c /\ input c' = input c /\
    trace w' = trace w ++ map EvFree freed ++
      match dnn_module c, model c with
      | Some _, Some h => [EvFreeModel h]
      | _, _ => []
      end /\
    heap w' = fold_left (fun h b => remove_blk b h) freed (heap w).
Proof.
  split; [reflexivity|]. split; [vm_compute; discriminate|].
  exact (uninit_releases_counted_planes_and_model
           (set_planes (set_nb_planes ctx_loaded 2)
              [mkPlane (Some 0%nat) 4 4; mkPlane (Some 1%nat) 4 4;
               mkPlane (Some 2%nat) 4 4])
           (mkWorld [(2%nat, 16); (1%nat, 16); (0%nat, 16)] 3 [] [])
           eq_refl ltac:(vm_compute; discriminate)).
Defined.

(** *** Reconfiguration *)

(** A successful [config_props] points the three planes at three
    consecutive new blocks of the (wrapped) size [w * h], and frees
    nothing. *)
Lemma config_props_success_shape inlink c w m h c' w' :
  dnn_module c = Some m -> model c = Some h ->
  List.length (planes c) = 3%nat ->
  config_props inlink c w = Some (0, c', w') ->
  let lw := link_w inlink in
  let lh := link_h inlink in
  let s := size_t_of_int (c_int_mul lw lh) in
  let b := next_blk w in
  planes c' = [mkPlane (Some b) lw lh; mkPlane (Some (S b)) lw lh;
               mkPlane (Some (S (S b))) lw lh] /\
  heap w' = [(S (S b), s); (S b, s); (b, s)] ++ heap w /\
  next_blk w' = S (S (S b)) /\ nb_planes c' = 3 /\
  dnn_module c' = dnn_module c /\ model c' = model c.
Proof.
  intros Hm Hh Hlen H. cbv zeta.
  destruct (planes c) as [|q0 [|q1 [|q2 [|]]]] eqn:Hp; simpl in Hlen;
    try discriminate.
  config_to_loop H Hm Hh.
  malloc_cases H;
    try discriminate H;
    injection H as <- <-;
    cbv [set_plane set_planes set_nb_planes set_input]; simpl;
    rewrite Hp; simpl.
  world_rewrite. rewrite Hm, Hh. repeat split.
Qed.

Lemma remove_blk_skip b b' s h :
  b <> b' -> remove_blk b ((b', s) :: h) = (b', s) :: remove_blk b h.
Proof.
  intros Hne. simpl. destruct (Nat.eqb_spec b b'); [contradiction|reflexivity].
Qed.

Lemma remove_blk_hit b s h : remove_blk b ((b, s) :: h) = h.
Proof. simpl. rewrite Nat.eqb_refl. reflexivity. Qed.

(** X4: [config_props] overwrites the plane pointers without freeing the
    buffers they held: when the link is configured twice (both times
    successfully) and the filter is then torn down, the three buffers of
    the first configuration are never freed, and no plane points to them
    any more. *)
Theorem reconfiguration_leaks_first_buffers l1 l2 c w m h c1 w1 c2 w2 :
  dnn_module c = Some m -> model c = Some h ->
  List.length (planes c) = 3%nat ->
  config_props l1 c w = Some (0, c1, w1) ->
  config_props l2 c1 w1 = Some (0, c2, w2) ->
  let s := size_t_of_int (c_int_mul (link_w l1) (link_h l1)) in
  let b := next_blk w in
  exists c3 w3,
    uninit c2 w2 = Some (c3, w3) /\
    heap w3 = [(S (S b), s); (S b, s); (b, s)] ++ heap w /\
    Forall (fun pl => residual pl = None) (planes c3).
Proof.
  intros Hm Hh Hlen H1 H2 s b.
  destruct (config_props_success_shape l1 c w m h c1 w1 Hm Hh Hlen H1)
    as (Hp1 & Hh1 & Hn1 & _ & Hm1 & Hmd1).
  rewrite Hm in Hm1. rewrite Hh in Hmd1.
  destruct (config_props_success_shape l2 c1 w1 m h c2 w2 Hm1 Hmd1
              ltac:(rewrite Hp1; reflexivity) H2)
    as (Hp2 & Hh2 & _ & Hnb2 & _ & _).
  destruct (uninit_effect c2 w2 ltac:(rewrite Hnb2, Hp2; simpl; lia))
    as (c3 & w3 & Hu & Hnth & _ & _ & _ & _ & _ & Hh3).
  exists c3, w3. split; [exact Hu|].
  rewrite Hnb2, Hp2 in Hnth. rewrite Hnb2, Hp2, Hh2, Hn1, Hh1 in Hh3.
  change (Z.to_nat 3) with 3%nat in Hh3.
  cbn [residual_blocks flat_map firstn fold_left residual app] in Hh3.
  repeat first [ rewrite remove_blk_hit in Hh3
               | rewrite remove_blk_skip in Hh3 by lia ].
  split.
  - exact Hh3.
  - assert (Hlen3 : List.length (planes c3) = 3%nat).
    { destruct (planes c3) as [|x0 [|x1 [|x2 [|x3 t]]]] eqn:E;
        [specialize (Hnth 0%nat)|specialize (Hnth 1%nat)
        |specialize (Hnth 2%nat)|reflexivity|specialize (Hnth 3%nat)];
        simpl in Hnth; discriminate Hnth. }
    apply Forall_forall. intros pl Hin.
    apply In_nth_error in Hin as [i Hi].
    rewrite Hnth in Hi.
    destruct i as [|[|[|i]]]; simpl in Hi;
      try (injection Hi as <-; reflexivity).
    rewrite nth_error_nil in Hi. discriminate Hi.
Qed.

Lemma reconfiguration_leaks_first_buffers_witness :
  exists c1 w1 c2 w2,
    config_props (link_yuv 4 4) ctx_loaded (world0 []) = Some (0, c1, w1) /\
    config_props (link_yuv 8 8) c1 w1 = Some (0, c2, w2) /\
    exists c3 w3,
      uninit c2 w2 = Some (c3, w3) /\
      heap w3 = [(2%nat, 16); (1%nat, 16); (0%nat, 16)] /\
      Forall (fun pl => residual pl = None) (planes c3).
Proof.
  do 4 eexists. split; [vm_compute; reflexivity|].
  split; [vm_compute; reflexivity|].
  exact (reconfiguration_leaks_first_buffers (link_yuv 4 4) (link_yuv 8 8)
           ctx_loaded (world0 []) demo_module 7%nat _ _ _ _
           eq_refl eq_refl eq_refl eq_refl eq_refl).
Defined.

(** *** Frame sequences *)




(** X9: the frame that replaces a shared input is a new writable frame
    with the next frame id, the output link's width and height (not the
    input's), the pool's samples, and the input's timestamp and stream
    position; it is forwarded and the call returns 0. *)
Theorem filter_frame_replacement_frame vbuf n outlink c w fw in_ d :
  frame_writable in_ = false -> vbuf = Some d ->
  let '(r, _, _, fw') := filter_frame vbuf n outlink c w fw in_ in
  r = 0 /\ next_frame fw' = S (next_frame fw) /\
  downstream fw' = downstream fw ++
    [mkFrame (next_frame fw) true (pts in_) (pkt_pos in_)
             (link_w outlink) (link_h outlink) d].
Proof.
  intros Hw ->. unfold filter_frame. rewrite Hw. simpl.
  destruct (Nat.eqb (next_frame fw) (frame_id in_)); simpl; auto.
Qed.

Lemma filter_frame_replacement_frame_witness :
  let in_ := mkFrame 0 false 10 100 2 2 [7] in
  frame_writable in_ = false /\ Some [0; 0] = Some [0; 0] /\
  let '(r, _, _, fw') :=
    filter_frame (Some [0; 0]) 1 (link_yuv 4 4) ctx_loaded (world0 [])
                 (mkFW 1 [] []) in_ in
  r = 0 /\ next_frame fw' = S (next_frame (mkFW 1 [] [])) /\
  downstream fw' = downstream (mkFW 1 [] []) ++
    [mkFrame (next_frame (mkFW 1 [] [])) true (pts in_) (pkt_pos in_)
             (link_w (link_yuv 4 4)) (link_h (link_yuv 4 4)) [0; 0]].
Proof.
  split; [reflexivity|]. split; [reflexivity|].
  exact (filter_frame_replacement_frame (Some [0; 0]) 1 (link_yuv 4 4)
           ctx_loaded (world0 []) (mkFW 1 [] [])
           (mkFrame 0 false 10 100 2 2 [7]) [0; 0] eq_refl eq_refl).
Defined.

(** One [filter_frame] call logs one line, with the counter it was given
    and the input's position and size, exactly when it does not fail. *)
Lemma filter_frame_log vbuf n outlink c w fw in_ :
  let '(_, c', w', _) := filter_frame vbuf n outlink c w fw in_ in
  c' = c /\
  trace w' = trace w ++
    (if frame_writable in_ ||
        match vbuf with Some _ => true | None => false end
     then [EvLogFrame n (pkt_pos in_) (frame_width in_) (frame_height in_)]
     else []).
Proof.
  unfold filter_frame.
  destruct (frame_writable in_); simpl.
  - rewrite ?Nat.eqb_refl. simpl. auto.
  - destruct vbuf as [d|]; simpl.
    + destruct (Nat.eqb (next_frame fw) (frame_id in_)); simpl; auto.
    + rewrite app_nil_r. auto.
Qed.

Lemma feed_frames_log outlink ins : forall n s c w fw,
  let fwd (p : AVFrame * option (list Z)) :=
    frame_writable (fst p) ||
    match snd p with Some _ => true | None => false end in
  let '(_, w', _) := feed_frames outlink n c w fw ins in
  trace w' = trace w ++
    flat_map (fun ip =>
      if fwd (snd ip) then
        [EvLogFrame (n + 1 - Z.of_nat s + Z.of_nat (fst ip))
                    (pkt_pos (fst (snd ip))) (frame_width (fst (snd ip)))
                    (frame_height (fst (snd ip)))]
      else [])
      (combine (seq s (List.length ins)) ins).
Proof.
  induction ins as [|[f vbuf] rest IH]; intros n s c w fw fwd; simpl.
  - rewrite app_nil_r. reflexivity.
  - pose proof (filter_frame_log vbuf (n + 1) outlink c w fw f) as Hs.
    destruct (filter_frame vbuf (n + 1) outlink c w fw f)
      as [[[r c1] w1] fw1].
    destruct Hs as [-> Htr].
    specialize (IH (n + 1) (S s) c w1 fw1).
    destruct (feed_frames outlink (n + 1) c w1 fw1 rest) as [[rs w'] fw'].
    unfold fwd in *. simpl in *. rewrite IH, Htr, <- app_assoc.
    f_equal.
    replace (n + 1 - Z.of_nat s + Z.of_nat s) with (n + 1) by lia.
    f_equal.
    apply flat_map_ext. intros [i p]. simpl.
    rewrite Zpos_P_of_succ_nat.
    replace (n + 1 + 1 - Z.succ (Z.of_nat s) + Z.of_nat i)
      with (n + 1 - Z.of_nat s + Z.of_nat i) by lia.
    reflexivity.
Qed.

(** X10: over a sequence of frames, the filter logs one line for each input
    it does not fail on, in order, tagged with that input's number in the
    sequence (the link's output frame counter, incremented for every
    frame, dropped ones included) and with the input's stream position and
    size; an input dropped for lack of memory is not logged. *)
Theorem feed_frames_logs_numbered_lines outlink n c w fw ins :
  let fwd (p : AVFrame * option (list Z)) :=
    frame_writable (fst p) ||
    match snd p with Some _ => true | None => false end in
  let '(_, w', _) := feed_frames outlink n c w fw ins in
  trace w' = trace w ++
    flat_map (fun kp =>
      if fwd (snd kp) then
        [EvLogFrame (n + Z.of_nat (fst kp)) (pkt_pos (fst (snd kp)))
                    (frame_width (fst (snd kp))) (frame_height (fst (snd kp)))]
      else [])
      (combine (seq 1 (List.length ins)) ins).
Proof.
  intros fwd.
  pose proof (feed_frames_log outlink ins n 1 c w fw) as H.
  destruct (feed_frames outlink n c w fw ins) as [[rs w'] fw'].
  rewrite H. f_equal. apply flat_map_ext. intros [k p]. simpl.
  replace (n + 1 - 1 + Z.of_nat k) with (n + Z.of_nat k) by lia.
  reflexivity.
Qed.

Lemma residual_blocks_firstn_null l : forall n,
  (forall i pl, (i < n)%nat -> nth_error l i = Some pl -> residual pl = None) ->
  residual_blocks (firstn n l) = [].
Proof.
  induction l as [|pl l IH]; intros [|n] H; simpl; auto.
  rewrite (H 0%nat pl ltac:(lia) eq_refl). simpl.
  apply IH. intros i q Hi Hq. apply (H (S i) q); [lia|exact Hq].
Qed.

Lemma uninit_planes_length c w c' w' :
  uninit c w = Some (c', w') ->
  List.length (planes c') = List.length (planes c).
Proof.
  unfold uninit.
  pose proof (free_planes_spec (Z.to_nat (nb_planes c)) 0 c w) as Hf.
  destruct (free_planes _ 0 c w) as [[c1 w1]|]; [|discriminate].
  destruct Hf as (_ & _ & Hl & _).
  destruct (dnn_module c1); [unfold free_model; destruct (model c1)|];
    intros H; injection H as <- <-; exact Hl.
Qed.

(** X11: tearing the filter down a second time is harmless: after an
    [uninit] of a context counting at most three planes, a further
    [uninit] frees nothing, releases nothing and changes nothing (the
    residual pointers it would free are NULL and the module is gone). *)
Theorem uninit_twice_changes_nothing c w c' w' :
  List.length (planes c) = 3%nat -> nb_planes c <= 3 ->
  uninit c w = Some (c', w') ->
  uninit c' w' = Some (c', w').
Proof.
  intros Hlen Hnb Hu.
  pose proof (uninit_planes_length c w c' w' Hu) as Hl'.
  destruct (uninit_effect c w ltac:(rewrite Hlen; lia))
    as (c1 & w1 & Hu1 & Hnth & Hmod & _ & Hnb1 & _).
  rewrite Hu in Hu1. injection Hu1 as E1 E2. subst c1 w1.
  unfold uninit. rewrite Hnb1.
  pose proof (free_planes_spec (Z.to_nat (nb_planes c)) 0 c' w') as Hf.
  destruct (free_planes _ 0 c' w') as [[c2 w2]|].
  2:{ rewrite Hl', Hlen in Hf. lia. }
  destruct Hf as (_ & Hc2 & _ & Hnth2 & Htr2 & Hh2 & Hnb2 & Hok2).
  assert (Hp : planes c2 = planes c').
  { apply nth_error_ext. intros i. rewrite Hnth2, !Hnth. simpl.
    destruct (i <? Z.to_nat (nb_planes c))%nat; [|reflexivity].
    destruct (nth_error (planes c) i); reflexivity. }
  assert (Hnull : residual_blocks
                    (firstn (Z.to_nat (nb_planes c)) (skipn 0 (planes c')))
                  = []).
  { apply residual_blocks_firstn_null. intros i pl Hi Hpl.
    rewrite Hnth in Hpl.
    destruct (Nat.ltb_spec i (Z.to_nat (nb_planes c))); [|lia].
    destruct (nth_error (planes c) i); simpl in Hpl; [|discriminate Hpl].
    injection Hpl as <-. reflexivity. }
  rewrite Hnull in Htr2, Hh2. simpl in Htr2, Hh2.
  rewrite app_nil_r in Htr2.
  assert (Hc : c2 = c') by (rewrite Hc2, Hp; destruct c'; reflexivity).
  assert (Hw : w2 = w')
    by (destruct w2, w'; simpl in *; subst; reflexivity).
  subst c2 w2. rewrite Hmod. reflexivity.
Qed.

Lemma uninit_twice_changes_nothing_witness :
  let c := set_planes ctx_loaded
             [mkPlane (Some 0%nat) 4 4; mkPlane (Some 1%nat) 4 4;
              mkPlane (Some 2%nat) 4 4] in
  let c := set_nb_planes c 3 in
  let w := mkWorld [(2%nat, 16); (1%nat, 16); (0%nat, 16)] 3 [] [] in
  List.length (planes c) = 3%nat /\ nb_planes c <= 3 /\
  exists c' w',
    uninit c w = Some (c', w') /\ uninit c' w' = Some (c', w').
Proof.
  split; [reflexivity|]. split; [vm_compute; discriminate|].
  do 2 eexists. split; [vm_compute; reflexivity|].
  exact (uninit_twice_changes_nothing
           (set_nb_planes
              (set_planes ctx_loaded
                 [mkPlane (Some 0%nat) 4 4; mkPlane (Some 1%nat) 4 4;
                  mkPlane (Some 2%nat) 4 4]) 3)
           (mkWorld [(2%nat, 16); (1%nat, 16); (0%nat, 16)] 3 [] [])
           _ _ eq_refl ltac:(vm_compute; discriminate) eq_refl).
Defined.
